(** * propsProblem.cpp: a heterogeneous property store

    A shallow embedding of [src/propsProblem/propsProblem.cpp]: the value
    cells [BaseProperty] / [Property<T>], the small value class [Bounds], the
    store [Properties] with its [set] and its two [get]s, and the [main]
    walkthrough on an [Entity].

    Conventions of the embedding.
    - [int] and [std::size_t] are [Z]; the conversion to [std::size_t] reduces
      modulo [2^64], signed [int] addition outside the [int] range is
      undefined behaviour and is [None].
    - A template type parameter [class T] for a stored value is a name
      [T : type] with carrier [val T]; two C++ types with the same carrier
      (such as [int] and [std::size_t]) stay distinct names.
    - The traits consulted by [if constexpr] are a class [IdTraits IdType].
    - [std::hash] is implementation-defined: [std::hash<size_t>] is a
      parameter of the development, [std::hash<IdType>] is carried by the
      traits of a trivial identifier type.
    - A call either returns or throws; member functions of the store run in a
      state-and-exception monad over [mProperties]. *)

From stdpp Require Import gmap.
From Stdlib Require Import ZArith Lia.

Local Open Scope Z_scope.

(** ** Machine integers *)

Definition SIZE_WIDTH : Z := 64.
Definition INT_MIN : Z := - 2 ^ 31.
Definition INT_MAX : Z := 2 ^ 31 - 1.

(** [static_cast<std::size_t>(v)] for an integral [v]. *)
Definition static_cast_size_t (v : Z) : Z := Z.modulo v (2 ^ SIZE_WIDTH).

(** [a + b] on [int]; overflow is undefined behaviour. *)
Definition int_add (a b : Z) : option Z :=
  if (INT_MIN <=? a + b) && (a + b <=? INT_MAX) then Some (a + b) else None.

(** ** Enumerations

    Each [enum class] is a module: its members, and the value of each member in
    the underlying type [int] (members are numbered from zero in order). *)

Module EntityType.
Inductive t := Invalid | Building | Unit | Resource.
Definition underlying (e : t) : Z :=
    match e with Invalid => 0 | Building => 1 | Unit => 2 | Resource => 3 end.
End EntityType.

Module BuildingType.
Inductive t :=
    Invalid | TownCenter | Barracks | ArcheryRange | Stable | Monastery | SiegeWorkshop.
Definition underlying (e : t) : Z :=
    match e with
    | Invalid => 0 | TownCenter => 1 | Barracks => 2 | ArcheryRange => 3
    | Stable => 4 | Monastery => 5 | SiegeWorkshop => 6
    end.
End BuildingType.

Module CommonPropertyId.
Inductive t := Invalid | HealthPoints | Bounds.
Definition underlying (e : t) : Z :=
    match e with Invalid => 0 | HealthPoints => 1 | Bounds => 2 end.
End CommonPropertyId.

Module BuildingPropertyId.
Inductive t := Invalid | BuildingType | Bounds.
Definition underlying (e : t) : Z :=
    match e with Invalid => 0 | BuildingType => 1 | Bounds => 2 end.
End BuildingPropertyId.

Module UnitPropertyId.
Inductive t := Invalid | MovementSpeed.
Definition underlying (e : t) : Z :=
    match e with Invalid => 0 | MovementSpeed => 1 end.
End UnitPropertyId.

(** ** class Bounds *)

Module Bounds.
Record t := Bounds { mX : Z; mY : Z; mWidth : Z; mHeight : Z }.

Definition x (this : t) : Z := mX this.
Definition y (this : t) : Z := mY this.
Definition width (this : t) : Z := mWidth this.
Definition height (this : t) : Z := mHeight this.

  (** [x >= this->x() && x <= this->x() + width() && y >= this->y()
       && y <= this->y() + height()], with the short circuit of [&&]: a sum is
      computed only when the conjuncts to its left hold. *)
Definition contains (this : t) (px py : Z) : option bool :=
    if negb (x this <=? px) then Some false else
    match int_add (x this) (width this) with
    | None => None
    | Some x_max =>
        if negb (px <=? x_max) then Some false else
        if negb (y this <=? py) then Some false else
        match int_add (y this) (height this) with
        | None => None
        | Some y_max => Some (py <=? y_max)
        end
    end.
End Bounds.


(** ** Value cells: BaseProperty and Property<T> *)

(** The types a value can be stored as: a name per C++ type, and the values
    of each. *)
Class ValueTypes := {
  type : Type;
  val : type → Type
}.

(** [mObj] is copy-initialised from an expression of type [A] into
    [std::optional<T>]: the instantiation exists when [A] converts implicitly
    to [T]. *)
Class ImplicitlyConvertible {types : ValueTypes} (A T : type) :=
  implicit_conversion : val A → val T.

#[export] Instance convertible_same {types : ValueTypes} (T : type) :
  ImplicitlyConvertible T T := λ obj, obj.

(** [Property<T>]: its only member is [T mObj]; the base class has none. *)
Record Property {types : ValueTypes} (T : type) := Property_ctor { mObj : val T }.
Arguments Property_ctor {types} T obj : rename.
Arguments mObj {types T} this : rename.

(** An object seen through a [BaseProperty*]: what [std::shared_ptr<BaseProperty>]
    points to is a [Property<T>] for some [T], which the static type forgets. *)
Inductive BaseProperty {types : ValueTypes} : Type :=
  as_BaseProperty (T : type) (derived : Property T).
Arguments as_BaseProperty {types} T derived.

(** [std::make_shared<Property<ValueType>>(Property<ValueType>(value))],
    converted to [std::shared_ptr<BaseProperty>]. *)
Definition make_shared_Property {types : ValueTypes} (ValueType : type) (value : val ValueType)
  : BaseProperty :=
  as_BaseProperty ValueType (Property_ctor ValueType value).

(** [template<class T> std::optional<T> BaseProperty::get() { return std::nullopt; }]
    It is not virtual: a call on a [BaseProperty] lvalue runs this body whatever
    the pointed object is. *)
Definition BaseProperty_get {types : ValueTypes} (T : type) (this : BaseProperty)
  : option (val T) := None.

(** [void Property<T>::set(T obj) { mObj = obj; }] *)
Definition Property_set {types : ValueTypes} {T : type} (this : Property T) (obj : val T)
  : Property T := Property_ctor T obj.

(** [template <class T> std::optional<T> Property<A>::get() { return mObj; }]
    The member template reuses the name [T] of the class template's parameter;
    the inner one, the requested type, is the one in scope in the body. *)
Definition Property_get {types : ValueTypes} {A : type} (T : type)
  `{!ImplicitlyConvertible A T} (this : Property A) : option (val T) :=
  Some (implicit_conversion (mObj this)).

(** ** Calls that return or throw *)

Inductive exception := bad_optional_access.

Inductive outcome (X : Type) : Type :=
| Returned (x : X)
| Threw (e : exception).
Arguments Returned {X} x.
Arguments Threw {X} e.

(** Member functions of [Properties] act on [mProperties], a
    [std::unordered_map<size_t, std::shared_ptr<BaseProperty>>]. *)
Definition M {types : ValueTypes} (X : Type) : Type :=
  gmap Z BaseProperty → outcome X * gmap Z BaseProperty.

#[export] Instance M_ret {types : ValueTypes} : MRet M := λ X x mProperties,
  (Returned x, mProperties).

#[export] Instance M_bind {types : ValueTypes} : MBind M := λ X Y k m mProperties,
  match m mProperties with
  | (Returned x, mProperties') => k x mProperties'
  | (Threw e, mProperties') => (Threw e, mProperties')
  end.

Definition throw {types : ValueTypes} {X : Type} (e : exception) : M X :=
  λ mProperties, (Threw e, mProperties).

(** [std::optional<T>::value()]: the contained value, or the exception. *)
Definition optional_value {types : ValueTypes} {X : Type} (o : option X) : M X :=
  match o with
  | Some x => mret x
  | None => throw bad_optional_access
  end.

(** [mProperties.insert({key, newprop})]: [std::unordered_map::insert] adds the
    pair only when no element with that key is in the map. *)
Definition mProperties_insert {types : ValueTypes} (key : Z) (newprop : BaseProperty) : M unit :=
  λ mProperties,
    match mProperties !! key with
    | Some _ => (Returned tt, mProperties)
    | None => (Returned tt, <[key := newprop]> mProperties)
    end.

(** [mProperties.find(key)], with [None] for [mProperties.end()] and
    [Some second] for an iterator to [(key, second)]. *)
Definition mProperties_find {types : ValueTypes} (key : Z) : M (option BaseProperty) :=
  λ mProperties, (Returned (mProperties !! key), mProperties).

(** ** Identifier types *)

(** [std::hash<size_t>], fixed by the standard library in use. *)
Class StdHash := std_hash_size_t : Z → Z.

(** What [if constexpr] learns about [IdType], in the order it asks:
    [std::is_enum<IdType>] with the conversion of a member to its underlying
    integer; else [std::is_trivial<IdType>] with [std::hash<IdType>]; else
    neither, with [sizeof(IdType)]. *)
Inductive IdTraits (IdType : Type) : Type :=
| is_enum (underlying : IdType → Z)
| is_trivial (std_hash_IdType : IdType → Z)
| otherwise (sizeof_IdType : Z).
Arguments is_enum {IdType} underlying.
Arguments is_trivial {IdType} std_hash_IdType.
Arguments otherwise {IdType} sizeof_IdType.
Existing Class IdTraits.
Global Hint Mode IdTraits ! : typeclass_instances.

#[export] Instance EntityType_traits : IdTraits EntityType.t :=
  is_enum EntityType.underlying.
#[export] Instance BuildingType_traits : IdTraits BuildingType.t :=
  is_enum BuildingType.underlying.
#[export] Instance CommonPropertyId_traits : IdTraits CommonPropertyId.t :=
  is_enum CommonPropertyId.underlying.
#[export] Instance BuildingPropertyId_traits : IdTraits BuildingPropertyId.t :=
  is_enum BuildingPropertyId.underlying.
#[export] Instance UnitPropertyId_traits : IdTraits UnitPropertyId.t :=
  is_enum UnitPropertyId.underlying.

(** ** class Properties *)

Module Properties.

(** [template <class IdType, class ValueType>
     void set(IdType const& id, ValueType&& value)].
    The last branch does not instantiate: line 202 closes the hasher's argument
    list after [newprop], so the hasher gets two arguments, and a program that
    calls [set] with such an [IdType] does not compile ([set_normalize] below
    is [None] there). So that [set] is defined on every [IdTraits] the branch
    is given the pair of the two branches above, key then pointer. *)
Definition set {types : ValueTypes} {hasher : StdHash} {IdType : Type} {traits : IdTraits IdType}
    (ValueType : type) (id : IdType) (value : val ValueType) : M unit :=
  let newprop := make_shared_Property ValueType value in
  match traits with
  | is_enum underlying =>
      let hash := std_hash_size_t (static_cast_size_t (underlying id)) in
      mProperties_insert hash newprop
  | is_trivial std_hash_IdType =>
      let hash := std_hash_IdType id in
      mProperties_insert hash newprop
  | otherwise sizeof_IdType =>
      mProperties_insert (std_hash_size_t sizeof_IdType) newprop
  end.

(** [return ( * (res->second.get())).get<ValueType>().value();]
    [res->second.get()] is a [BaseProperty*], so the accessor called is
    [BaseProperty::get<ValueType>]. *)
Definition get_found {types : ValueTypes} (ValueType : type) (second : BaseProperty)
  : M (option (val ValueType)) :=
  v ← optional_value (BaseProperty_get ValueType second);
  mret (Some v).

(** [template <class IdType, class ValueType>
     std::optional<ValueType const> get(IdType const& id) const].
    The second branch does not instantiate: on line 222 [std::hash<size_t>]
    is given [std::hash(id)], which names no hasher, and a program that calls
    [get] with such an [IdType] does not compile ([get_normalize] below is
    [None] there). So that [get] is defined on every [IdTraits] the inner
    hasher is read as the one of [IdType]. *)
Definition get {types : ValueTypes} {hasher : StdHash} {IdType : Type} {traits : IdTraits IdType}
    (ValueType : type) (id : IdType) : M (option (val ValueType)) :=
  match traits with
  | is_enum underlying =>
      res ← mProperties_find (std_hash_size_t (static_cast_size_t (underlying id)));
      match res with
      | Some second => get_found ValueType second
      | None => mret None
      end
  | is_trivial std_hash_IdType =>
      res ← mProperties_find (std_hash_size_t (std_hash_IdType id));
      match res with
      | Some second => get_found ValueType second
      | None => mret None
      end
  | otherwise sizeof_IdType =>
      let idSize := sizeof_IdType in
      res ← mProperties_find (std_hash_size_t idSize);
      match res with
      | Some second => get_found ValueType second
      | None => mret None
      end
  end.

(** [template <class IdType, class ValueType>
     ValueType const& get(IdType const& id, ValueType const& fallback) const] *)
Definition get_fallback {types : ValueTypes} {hasher : StdHash} {IdType : Type} {traits : IdTraits IdType}
    (ValueType : type) (id : IdType) (fallback : val ValueType) : M (val ValueType) :=
  value ← get ValueType id;
  match value with
  | None => mret fallback
  | Some _ => optional_value value
  end.

(** The key [set] inserts under and the key [get] looks up, read off the
    branches above as they are embedded. *)
Definition set_key {hasher : StdHash} {IdType : Type} {traits : IdTraits IdType} (id : IdType) : Z :=
  match traits with
  | is_enum underlying => std_hash_size_t (static_cast_size_t (underlying id))
  | is_trivial std_hash_IdType => std_hash_IdType id
  | otherwise sizeof_IdType => std_hash_size_t sizeof_IdType
  end.

Definition get_key {hasher : StdHash} {IdType : Type} {traits : IdTraits IdType} (id : IdType) : Z :=
  match traits with
  | is_enum underlying => std_hash_size_t (static_cast_size_t (underlying id))
  | is_trivial std_hash_IdType => std_hash_size_t (std_hash_IdType id)
  | otherwise sizeof_IdType => std_hash_size_t sizeof_IdType
  end.



End Properties.

(** One call of [set], with its template arguments, and a sequence of them. *)
Record set_call {types : ValueTypes} : Type := SetCall {
  call_IdType : Type;
  call_traits : IdTraits call_IdType;
  call_id : call_IdType;
  call_ValueType : type;
  call_value : val call_ValueType
}.
Arguments SetCall {types} call_IdType {call_traits} call_id call_ValueType call_value.

Definition run_set {types : ValueTypes} {hasher : StdHash} (c : set_call) : M unit :=
  Properties.set (traits := call_traits c) (call_ValueType c) (call_id c) (call_value c).

Definition call_key {types : ValueTypes} {hasher : StdHash} (c : set_call) : Z :=
  Properties.set_key (traits := call_traits c) (call_id c).

Fixpoint run_sets {types : ValueTypes} {hasher : StdHash} (calls : list set_call) : M unit :=
  match calls with
  | [] => mret tt
  | c :: rest => run_set c;; run_sets rest
  end.

(** The map a computation leaves, and its outcome. *)
Definition final {types : ValueTypes} {X : Type} (m : M X) (mProperties : gmap Z BaseProperty)
  : gmap Z BaseProperty := snd (m mProperties).

Definition result {types : ValueTypes} {X : Type} (m : M X) (mProperties : gmap Z BaseProperty)
  : outcome X := fst (m mProperties).

(** ** class Entity and main *)

(** The value types the program instantiates the templates with ([int] for the
    literal [0], [BuildingType], [Bounds]) and [std::size_t]. *)
Inductive cpp_type := t_int | t_size_t | t_BuildingType | t_Bounds.

Definition cpp_val (T : cpp_type) : Type :=
  match T with
  | t_int => Z
  | t_size_t => Z
  | t_BuildingType => BuildingType.t
  | t_Bounds => Bounds.t
  end.

#[export] Instance cpp_types : ValueTypes := {| type := cpp_type; val := cpp_val |}.

(** The integral conversion from [int] to [std::size_t] is implicit; a scoped
    enumeration converts implicitly to no other type. *)
#[export] Instance int_to_size_t : ImplicitlyConvertible t_int t_size_t :=
  static_cast_size_t.

Record Entity := mk_Entity {
  mType : EntityType.t;
  mProps : gmap Z (@BaseProperty cpp_types)
}.

(** [Entity(EntityType type) : mType(type)]; [mProps] starts empty. *)
Definition Entity_ctor (type : EntityType.t) : Entity :=
  {| mType := type; mProps := ∅ |}.

Definition properties (this : Entity) : gmap Z (@BaseProperty cpp_types) := mProps this.

(** The statements of [main] on [e.properties()], in order. *)
Definition main_body {hasher : StdHash} : M Z :=
  Properties.set t_BuildingType BuildingPropertyId.BuildingType BuildingType.TownCenter;;
  Properties.set t_Bounds BuildingPropertyId.Bounds (Bounds.Bounds 0 0 2 2);;
  buildingTypeB ← Properties.get_fallback t_BuildingType
                     BuildingPropertyId.BuildingType BuildingType.Invalid;
  buildingTypeC ← Properties.get_fallback t_int BuildingPropertyId.BuildingType 0;
  extraScenario ← Properties.get_fallback t_int BuildingPropertyId.Invalid 0;
  mret 0.

Definition main {hasher : StdHash} : outcome Z :=
  let e := Entity_ctor EntityType.Building in
  result main_body (properties e).

(** The calls of [set] in [main], as a sequence. *)
Definition main_sets : list set_call :=
  [SetCall BuildingPropertyId.t BuildingPropertyId.BuildingType
     t_BuildingType BuildingType.TownCenter;
   SetCall BuildingPropertyId.t BuildingPropertyId.Bounds
     t_Bounds (Bounds.Bounds 0 0 2 2)].

(** Two further call sequences, used below on an empty store: the same
    identifier set twice, and two identifiers of different enumerations with
    the same underlying value [1]. *)
Definition set_twice {hasher : StdHash} : M unit :=
  Properties.set t_BuildingType BuildingPropertyId.BuildingType BuildingType.TownCenter;;
  Properties.set t_BuildingType BuildingPropertyId.BuildingType BuildingType.Barracks.

Definition set_colliding {hasher : StdHash} : M unit :=
  Properties.set t_int CommonPropertyId.HealthPoints 100;;
  Properties.set t_BuildingType BuildingPropertyId.BuildingType BuildingType.TownCenter.

(** ** A standard-library hasher

    The program fixes no [std::hash]; to evaluate the store on concrete inputs
    the hash of an integer is taken to be the integer (as in libstdc++ and
    libc++). *)
Definition identity_hash : StdHash := λ v, v.

(** ** The content of a store after a sequence of calls *)

(** The cell a call of [set] builds. *)
Definition call_cell {types : ValueTypes} (c : set_call) : BaseProperty :=
  make_shared_Property (call_ValueType c) (call_value c).

(** The cell of the earliest call in the sequence whose key is [key]. *)
Fixpoint first_with_key {types : ValueTypes} {hasher : StdHash}
    (key : Z) (calls : list set_call) : option BaseProperty :=
  match calls with
  | [] => None
  | c :: rest =>
      if bool_decide (call_key c = key) then Some (call_cell c)
      else first_with_key key rest
  end.

(** A sum that fits [int]. *)
Definition fits_int (v : Z) : Prop := INT_MIN ≤ v ≤ INT_MAX.

(** * Properties of the embedding *)

(** ** What one call does to [mProperties] *)

Section calls.
Context {types : ValueTypes} {hasher : StdHash}.

Lemma bind_run {X Y : Type} (m : M X) (k : X → M Y) (mProperties : gmap Z BaseProperty) :
  (m ≫= k) mProperties =
  match m mProperties with
  | (Returned x, mProperties') => k x mProperties'
  | (Threw e, mProperties') => (Threw e, mProperties')
  end.
Proof. reflexivity. Qed.

Lemma set_run {IdType : Type} {traits : IdTraits IdType}
    (ValueType : type) (id : IdType) (value : val ValueType)
    (mProperties : gmap Z BaseProperty) :
  Properties.set ValueType id value mProperties =
  (Returned tt,
   match mProperties !! Properties.set_key id with
   | Some _ => mProperties
   | None => <[Properties.set_key id := make_shared_Property ValueType value]> mProperties
   end).
Proof.
  unfold Properties.set, Properties.set_key, mProperties_insert.
  destruct traits; cbn; case_match; reflexivity.
Qed.

Lemma get_run {IdType : Type} {traits : IdTraits IdType}
    (ValueType : type) (id : IdType) (mProperties : gmap Z BaseProperty) :
  Properties.get ValueType id mProperties =
  (match mProperties !! Properties.get_key id with
   | Some _ => Threw bad_optional_access
   | None => Returned None
   end, mProperties).
Proof.
  unfold Properties.get, Properties.get_key.
  destruct traits; rewrite bind_run; unfold mProperties_find;
    case_match; reflexivity.
Qed.

Lemma get_fallback_run {IdType : Type} {traits : IdTraits IdType}
    (ValueType : type) (id : IdType) (fallback : val ValueType)
    (mProperties : gmap Z BaseProperty) :
  Properties.get_fallback ValueType id fallback mProperties =
  (match mProperties !! Properties.get_key id with
   | Some _ => Threw bad_optional_access
   | None => Returned fallback
   end, mProperties).
Proof.
  unfold Properties.get_fallback. rewrite bind_run, get_run.
  destruct (mProperties !! Properties.get_key id); reflexivity.
Qed.

(** After [set], the key it used is in the map. *)
Lemma set_key_present {IdType : Type} {traits : IdTraits IdType}
    (ValueType : type) (id : IdType) (value : val ValueType)
    (mProperties : gmap Z BaseProperty) :
  is_Some (final (Properties.set ValueType id value) mProperties !! Properties.set_key id).
Proof.
  unfold final. rewrite set_run. cbn.
  destruct (mProperties !! Properties.set_key id) eqn:E.
  - rewrite E. eauto.
  - rewrite lookup_insert_eq. eauto.
Qed.

(** A second [set] under a key already in the map changes nothing. *)
Lemma set_present_noop {IdType : Type} {traits : IdTraits IdType}
    (ValueType : type) (id : IdType) (value : val ValueType)
    (mProperties : gmap Z BaseProperty) :
  is_Some (mProperties !! Properties.set_key id) →
  final (Properties.set ValueType id value) mProperties = mProperties.
Proof.
  intros [second E]. unfold final. rewrite set_run. cbn. rewrite E. reflexivity.
Qed.

(** [set] removes no key. *)
Lemma set_preserves_present {IdType : Type} {traits : IdTraits IdType}
    (ValueType : type) (id : IdType) (value : val ValueType)
    (mProperties : gmap Z BaseProperty) (key : Z) :
  is_Some (mProperties !! key) →
  is_Some (final (Properties.set ValueType id value) mProperties !! key).
Proof.
  intros Hkey. unfold final. rewrite set_run. cbn.
  case_match; [exact Hkey|].
  destruct (decide (Properties.set_key id = key)) as [<-|Hne].
  - rewrite lookup_insert_eq. eauto.
  - rewrite lookup_insert_ne; [exact Hkey | exact Hne].
Qed.

(** A key that is found makes both forms of [get] throw. *)
Lemma get_present_throws {IdType : Type} {traits : IdTraits IdType}
    (ValueType : type) (id : IdType) (mProperties : gmap Z BaseProperty) :
  is_Some (mProperties !! Properties.get_key id) →
  Properties.get ValueType id mProperties = (Threw bad_optional_access, mProperties).
Proof. intros [second E]. rewrite get_run, E. reflexivity. Qed.

Lemma get_fallback_present_throws {IdType : Type} {traits : IdTraits IdType}
    (ValueType : type) (id : IdType) (fallback : val ValueType)
    (mProperties : gmap Z BaseProperty) :
  is_Some (mProperties !! Properties.get_key id) →
  Properties.get_fallback ValueType id fallback mProperties
  = (Threw bad_optional_access, mProperties).
Proof. intros [second E]. rewrite get_fallback_run, E. reflexivity. Qed.

(** [set] always returns; what follows it runs on the map it leaves. *)
Lemma set_then {IdType : Type} {traits : IdTraits IdType} {X : Type}
    (ValueType : type) (id : IdType) (value : val ValueType) (k : M X)
    (mProperties : gmap Z BaseProperty) :
  (Properties.set ValueType id value;; k) mProperties =
  k (final (Properties.set ValueType id value) mProperties).
Proof. unfold final. rewrite bind_run, set_run. reflexivity. Qed.

(** No call of [get] returns a value: a key that is found ends in
    [std::optional::value()] on the empty optional of [BaseProperty::get]. *)
Lemma get_never_returns_value {IdType : Type} {traits : IdTraits IdType}
    (ValueType : type) (id : IdType) (v : val ValueType)
    (mProperties : gmap Z BaseProperty) :
  result (Properties.get ValueType id) mProperties ≠ Returned (Some v).
Proof.
  unfold result. rewrite get_run. cbn. case_match; discriminate.
Qed.

(** The two keys of an identifier, by kind of identifier type. *)
Lemma enum_keys_agree {IdType : Type} (underlying : IdType → Z) (id : IdType) :
  Properties.set_key (traits := is_enum underlying) id =
  Properties.get_key (traits := is_enum underlying) id.
Proof. reflexivity. Qed.

(** The keys a sequence of [set]s leaves in an empty map are among the keys of
    its calls. *)
Lemma run_sets_lookup_None (calls : list set_call) (key : Z)
    (mProperties : gmap Z BaseProperty) :
  Forall (λ c, call_key c ≠ key) calls →
  mProperties !! key = None →
  final (run_sets calls) mProperties !! key = None.
Proof.
  intros Hcalls. revert mProperties.
  induction Hcalls as [|c rest Hc _ IH]; intros mProperties Hkey.
  - exact Hkey.
  - unfold final in *. cbn [run_sets]. rewrite bind_run.
    unfold run_set. rewrite set_run. apply IH.
    fold (call_key c). case_match; [exact Hkey|].
    rewrite lookup_insert_ne; [exact Hkey | exact Hc].
Qed.

End calls.

(** ** Bounds *)

(** C9. On [Bounds(0,0,2,2)]: [contains(0,0)] and [contains(2,2)] are true (the
    edge [x + width], [y + height] is inside), [contains(3,3)] and
    [contains(-1,0)] are false. *)
Theorem C9_Bounds_contains :
  let b := Bounds.Bounds 0 0 2 2 in
  Bounds.contains b 0 0 = Some true ∧
  Bounds.contains b 2 2 = Some true ∧
  Bounds.contains b 3 3 = Some false ∧
  Bounds.contains b (-1) 0 = Some false.
Proof. cbv zeta. repeat split; vm_compute; reflexivity. Qed.

(** In general the test is the closed rectangle, whenever the two sums stay in
    the range of [int]. *)
Lemma Bounds_contains_spec (b : Bounds.t) (px py : Z) :
  INT_MIN ≤ Bounds.x b + Bounds.width b ≤ INT_MAX →
  INT_MIN ≤ Bounds.y b + Bounds.height b ≤ INT_MAX →
  Bounds.contains b px py =
  Some (bool_decide (Bounds.x b ≤ px ≤ Bounds.x b + Bounds.width b ∧
                     Bounds.y b ≤ py ≤ Bounds.y b + Bounds.height b)).
Proof.
  intros Hx Hy. unfold Bounds.contains, int_add.
  assert ((INT_MIN <=? Bounds.x b + Bounds.width b)
          && (Bounds.x b + Bounds.width b <=? INT_MAX) = true) as ->
    by (apply andb_true_iff; split; apply Z.leb_le; lia).
  assert ((INT_MIN <=? Bounds.y b + Bounds.height b)
          && (Bounds.y b + Bounds.height b <=? INT_MAX) = true) as ->
    by (apply andb_true_iff; split; apply Z.leb_le; lia).
  destruct (Z.leb_spec (Bounds.x b) px); cbn [negb];
    [|rewrite bool_decide_eq_false_2; [reflexivity | lia]].
  destruct (Z.leb_spec px (Bounds.x b + Bounds.width b)); cbn [negb];
    [|rewrite bool_decide_eq_false_2; [reflexivity | lia]].
  destruct (Z.leb_spec (Bounds.y b) py); cbn [negb];
    [|rewrite bool_decide_eq_false_2; [reflexivity | lia]].
  destruct (Z.leb_spec py (Bounds.y b + Bounds.height b)).
  - rewrite bool_decide_eq_true_2; [reflexivity | lia].
  - rewrite bool_decide_eq_false_2; [reflexivity | lia].
Qed.

(** ** The store *)

Section store.
Context {types : ValueTypes} {hasher : StdHash}.

(** C10. Neither form of [get] changes [mProperties], whether it returns or
    throws; [set(id, v)] leaves the entry of every key other than the key of
    [id] as it was. *)
Theorem C10_frame {IdType : Type} {traits : IdTraits IdType}
    (ValueType : type) (id : IdType) (value fallback : val ValueType)
    (mProperties : gmap Z BaseProperty) :
  final (Properties.get ValueType id) mProperties = mProperties ∧
  final (Properties.get_fallback ValueType id fallback) mProperties = mProperties ∧
  ∀ key : Z, key ≠ Properties.set_key id →
    final (Properties.set ValueType id value) mProperties !! key = mProperties !! key.
Proof.
  unfold final. rewrite get_run, get_fallback_run, set_run. cbn.
  split; [reflexivity|]. split; [reflexivity|].
  intros key Hkey. case_match; [reflexivity|].
  apply lookup_insert_ne. congruence.
Qed.

(** C1. [set(id, v)] followed by [get<IdType, type-of-v>(id)] does not return
    [v]: for an identifier of an enumeration type, on any map, the [get] ends
    with [std::bad_optional_access]. *)
Theorem C1_set_then_get_throws {IdType : Type} (underlying : IdType → Z)
    (ValueType : type) (id : IdType) (v : val ValueType)
    (mProperties : gmap Z BaseProperty) :
  result (Properties.set (traits := is_enum underlying) ValueType id v;;
          Properties.get (traits := is_enum underlying) ValueType id) mProperties
  = Threw bad_optional_access.
Proof.
  unfold result. rewrite bind_run, set_run, get_run.
  rewrite <- enum_keys_agree.
  destruct (set_key_present (traits := is_enum underlying) ValueType id v mProperties)
    as [second E].
  unfold final in E. rewrite set_run in E. cbn in E. cbn. rewrite E. reflexivity.
Qed.

(** C3. After [set(id, v)] with [v] of type [A], the fallback form
    [get<IdType, B>(id, fallback)] does not return [fallback]: for an
    identifier of an enumeration type it ends with [std::bad_optional_access],
    for every [B]. *)
Theorem C3_mismatch_get_fallback_throws {IdType : Type} (underlying : IdType → Z)
    (A B : type) (id : IdType) (v : val A) (fallback : val B)
    (mProperties : gmap Z BaseProperty) :
  result (Properties.set (traits := is_enum underlying) A id v;;
          Properties.get_fallback (traits := is_enum underlying) B id fallback) mProperties
  = Threw bad_optional_access.
Proof.
  unfold result. rewrite bind_run, set_run, get_fallback_run.
  rewrite <- enum_keys_agree.
  destruct (set_key_present (traits := is_enum underlying) A id v mProperties)
    as [second E].
  unfold final in E. rewrite set_run in E. cbn in E. cbn. rewrite E. reflexivity.
Qed.

End store.

(** C10 on a map that holds a cell under key [2]: [set] under
    [BuildingPropertyId::BuildingType], whose key under the identity hasher is
    [1] and is free, inserts its cell and leaves the entry of key [2] as it
    was. *)
Lemma C10_frame_witness :
  2 ≠ Properties.set_key (hasher := identity_hash) BuildingPropertyId.BuildingType ∧
  final (Properties.set (hasher := identity_hash) t_BuildingType
           BuildingPropertyId.BuildingType BuildingType.TownCenter)
    {[2 := make_shared_Property (types := cpp_types) t_int 9]} !! 2
  = ({[2 := make_shared_Property (types := cpp_types) t_int 9]} : gmap Z BaseProperty) !! 2 ∧
  ({[2 := make_shared_Property (types := cpp_types) t_int 9]} : gmap Z BaseProperty) !! 2
  = Some (make_shared_Property (types := cpp_types) t_int 9) ∧
  final (Properties.set (hasher := identity_hash) t_BuildingType
           BuildingPropertyId.BuildingType BuildingType.TownCenter)
    {[2 := make_shared_Property (types := cpp_types) t_int 9]} !! 1
  = Some (make_shared_Property t_BuildingType BuildingType.TownCenter).
Proof.
  assert (2 ≠ Properties.set_key (hasher := identity_hash)
                BuildingPropertyId.BuildingType) as Hne
    by (vm_compute; discriminate).
  split; [exact Hne|]. split; [|split; reflexivity].
  apply (C10_frame (types := cpp_types) (hasher := identity_hash) t_BuildingType
           BuildingPropertyId.BuildingType BuildingType.TownCenter
           BuildingType.Invalid {[2 := make_shared_Property (types := cpp_types) t_int 9]}).
  exact Hne.
Defined.

(** C8. What aborts [main] is not an assertion on a mismatched type: the
    first [get], which asks for the stored type [BuildingType] under the
    identifier it was stored with, ends with [std::bad_optional_access],
    whatever the hasher; nothing catches it, so [main] ends there. *)
Theorem C8_matching_get_aborts_main (hasher : StdHash) :
  result
    (Properties.set t_BuildingType BuildingPropertyId.BuildingType BuildingType.TownCenter;;
     Properties.set t_Bounds BuildingPropertyId.Bounds (Bounds.Bounds 0 0 2 2);;
     Properties.get_fallback t_BuildingType
       BuildingPropertyId.BuildingType BuildingType.Invalid)
    (properties (Entity_ctor EntityType.Building))
  = Threw bad_optional_access ∧
  main = Threw bad_optional_access.
Proof.
  assert (is_Some
    (final (Properties.set t_Bounds BuildingPropertyId.Bounds (Bounds.Bounds 0 0 2 2))
       (final (Properties.set t_BuildingType BuildingPropertyId.BuildingType
                 BuildingType.TownCenter)
          (properties (Entity_ctor EntityType.Building)))
     !! Properties.get_key BuildingPropertyId.BuildingType)) as Hfound.
  { apply set_preserves_present.
    exact (set_key_present t_BuildingType BuildingPropertyId.BuildingType
             BuildingType.TownCenter _). }
  split.
  - unfold result. rewrite !set_then.
    rewrite (get_fallback_present_throws _ _ _ _ Hfound). reflexivity.
  - unfold main, main_body, result. rewrite !set_then, bind_run.
    rewrite (get_fallback_present_throws _ _ _ _ Hfound). reflexivity.
Qed.

(** ** The value cell *)



(** [Property::set] replaces the held value and keeps the type. *)
Lemma Property_set_get {types : ValueTypes} (T : type) (this : Property T) (obj : val T) :
  Property_get T (Property_set this obj) = Some obj.
Proof. reflexivity. Qed.

(** ** Overwriting and collisions *)

Section overwrite.
Context {types : ValueTypes} {hasher : StdHash}.

(** C2, as the code has it. [set(id, v1)] then [set(id, v2)] leaves the map
    as [set(id, v1)] alone does: the second insertion finds the key and adds
    nothing. *)
Theorem C2_second_set_keeps_first {IdType : Type} {traits : IdTraits IdType}
    (A1 A2 : type) (id : IdType) (v1 : val A1) (v2 : val A2)
    (mProperties : gmap Z BaseProperty) :
  final (Properties.set A1 id v1;; Properties.set A2 id v2) mProperties
  = final (Properties.set A1 id v1) mProperties.
Proof.
  unfold final at 1. rewrite set_then.
  apply set_present_noop, set_key_present.
Qed.

(** C7, as the code has it. Members of two enumerations with the same
    underlying value have the same key, for [set] and for [get]; of
    [set(e1, v)] then [set(e2, w)] the first write stays. *)
Theorem C7_enum_collision_first_write_stays {E1 E2 : Type}
    (underlying1 : E1 → Z) (underlying2 : E2 → Z) (e1 : E1) (e2 : E2)
    (A B : type) (v : val A) (w : val B) (mProperties : gmap Z BaseProperty) :
  underlying1 e1 = underlying2 e2 →
  Properties.set_key (traits := is_enum underlying1) e1
    = Properties.set_key (traits := is_enum underlying2) e2 ∧
  Properties.get_key (traits := is_enum underlying1) e1
    = Properties.get_key (traits := is_enum underlying2) e2 ∧
  Properties.get_key (traits := is_enum underlying2) e2
    = Properties.set_key (traits := is_enum underlying1) e1 ∧
  final (Properties.set (traits := is_enum underlying1) A e1 v;;
         Properties.set (traits := is_enum underlying2) B e2 w) mProperties
  = final (Properties.set (traits := is_enum underlying1) A e1 v) mProperties.
Proof.
  intros Hsame.
  assert (Properties.set_key (traits := is_enum underlying1) e1
          = Properties.set_key (traits := is_enum underlying2) e2) as Hkey
    by (unfold Properties.set_key; rewrite Hsame; reflexivity).
  split; [exact Hkey|]. split; [exact Hkey|]. split; [symmetry; exact Hkey|].
  unfold final at 1. rewrite set_then.
  apply set_present_noop. rewrite <- Hkey. apply set_key_present.
Qed.

(** C6, as the code has it. When the key [get] computes for [id] is the key
    of no call of [set] made on the store since it was empty, the optional
    form returns empty and the fallback form returns [fallback]. *)
Theorem C6_absent_key_fallback {IdType : Type} {traits : IdTraits IdType}
    (calls : list set_call) (ValueType : type) (id : IdType) (fallback : val ValueType) :
  Forall (λ c, call_key c ≠ Properties.get_key id) calls →
  result (Properties.get ValueType id) (final (run_sets calls) ∅) = Returned None ∧
  result (Properties.get_fallback ValueType id fallback) (final (run_sets calls) ∅)
    = Returned fallback.
Proof.
  intros Hcalls.
  pose proof (run_sets_lookup_None calls _ ∅ Hcalls (lookup_empty _)) as Habsent.
  unfold result. rewrite get_run, get_fallback_run, Habsent. split; reflexivity.
Qed.

End overwrite.

(** C2 as stated fails: after [set(BuildingPropertyId::BuildingType, TownCenter)]
    and [set(BuildingPropertyId::BuildingType, Barracks)] on an empty store the
    slot holds the cell of [TownCenter], not that of [Barracks], and [get] does
    not return [Barracks]. *)
Lemma C2_first_entry_stays :
  final (set_twice (hasher := identity_hash)) ∅
    !! Properties.get_key (hasher := identity_hash) BuildingPropertyId.BuildingType
  = Some (make_shared_Property t_BuildingType BuildingType.TownCenter) ∧
  final (set_twice (hasher := identity_hash)) ∅
    !! Properties.get_key (hasher := identity_hash) BuildingPropertyId.BuildingType
  ≠ Some (make_shared_Property t_BuildingType BuildingType.Barracks) ∧
  result (set_twice (hasher := identity_hash);;
          Properties.get (hasher := identity_hash) t_BuildingType
            BuildingPropertyId.BuildingType) ∅
  ≠ Returned (Some BuildingType.Barracks).
Proof.
  assert (final (set_twice (hasher := identity_hash)) ∅
    !! Properties.get_key (hasher := identity_hash) BuildingPropertyId.BuildingType
  = Some (make_shared_Property t_BuildingType BuildingType.TownCenter)) as Hslot
    by reflexivity.
  split; [exact Hslot|]. split.
  - rewrite Hslot. intros Heq.
    apply (f_equal (λ o : option (@BaseProperty cpp_types),
      match o with
      | Some (as_BaseProperty t_BuildingType p) => BuildingType.underlying (mObj p)
      | _ => 0
      end)) in Heq.
    discriminate Heq.
  - vm_compute. discriminate.
Qed.

(** C7 as stated fails: [CommonPropertyId::HealthPoints] and
    [BuildingPropertyId::BuildingType] both have underlying value [1]; after
    [set(HealthPoints, 100)] then [set(BuildingType, TownCenter)] the slot
    holds the cell of [100], the earlier write. *)
Lemma C7_later_write_does_not_shadow :
  CommonPropertyId.underlying CommonPropertyId.HealthPoints
  = BuildingPropertyId.underlying BuildingPropertyId.BuildingType ∧
  final (set_colliding (hasher := identity_hash)) ∅
    !! Properties.get_key (hasher := identity_hash) BuildingPropertyId.BuildingType
  = Some (make_shared_Property t_int 100) ∧
  final (set_colliding (hasher := identity_hash)) ∅
    !! Properties.get_key (hasher := identity_hash) BuildingPropertyId.BuildingType
  ≠ Some (make_shared_Property t_BuildingType BuildingType.TownCenter).
Proof.
  split; [reflexivity|].
  assert (final (set_colliding (hasher := identity_hash)) ∅
    !! Properties.get_key (hasher := identity_hash) BuildingPropertyId.BuildingType
  = Some (make_shared_Property t_int 100)) as Hslot by reflexivity.
  split; [exact Hslot|].
  rewrite Hslot. intros Heq.
  apply (f_equal (λ o : option (@BaseProperty cpp_types),
    match o with
    | Some (as_BaseProperty t_int _) => true
    | _ => false
    end)) in Heq.
  discriminate Heq.
Qed.

(** C7 at [CommonPropertyId::HealthPoints] and
    [BuildingPropertyId::BuildingType], on an empty store. *)
Lemma C7_enum_collision_witness :
  CommonPropertyId.underlying CommonPropertyId.HealthPoints
  = BuildingPropertyId.underlying BuildingPropertyId.BuildingType ∧
  final (Properties.set (hasher := identity_hash)
           (traits := is_enum CommonPropertyId.underlying) t_int
           CommonPropertyId.HealthPoints 100;;
         Properties.set (hasher := identity_hash)
           (traits := is_enum BuildingPropertyId.underlying) t_BuildingType
           BuildingPropertyId.BuildingType BuildingType.TownCenter) ∅
  = final (Properties.set (hasher := identity_hash)
             (traits := is_enum CommonPropertyId.underlying) t_int
             CommonPropertyId.HealthPoints 100) ∅.
Proof.
  split; [reflexivity|].
  apply (C7_enum_collision_first_write_stays (types := cpp_types)
           (hasher := identity_hash)
           CommonPropertyId.underlying BuildingPropertyId.underlying
           CommonPropertyId.HealthPoints BuildingPropertyId.BuildingType
           t_int t_BuildingType 100 BuildingType.TownCenter ∅).
  reflexivity.
Defined.

(** C6 as stated fails: [BuildingPropertyId::BuildingType] was never passed to
    [set] on the store that [set(CommonPropertyId::HealthPoints, 100)] leaves,
    yet neither form of [get] treats it as absent. *)
Lemma C6_never_set_id_is_found :
  result (Properties.get_fallback (hasher := identity_hash) t_int
            BuildingPropertyId.BuildingType 0)
    (final (Properties.set (hasher := identity_hash) t_int
              CommonPropertyId.HealthPoints 100) ∅)
  ≠ Returned 0 ∧
  result (Properties.get (hasher := identity_hash) t_int
            BuildingPropertyId.BuildingType)
    (final (Properties.set (hasher := identity_hash) t_int
              CommonPropertyId.HealthPoints 100) ∅)
  ≠ Returned None.
Proof. split; vm_compute; discriminate. Qed.

(** C6 at the last [get] of [main]: [BuildingPropertyId::Invalid] after the two
    [set]s of [main], with fallback [0]. *)
Lemma C6_absent_key_witness :
  Forall (λ c, call_key (hasher := identity_hash) c
               ≠ Properties.get_key (hasher := identity_hash) BuildingPropertyId.Invalid)
    main_sets ∧
  result (Properties.get_fallback (hasher := identity_hash) t_int
            BuildingPropertyId.Invalid 0)
    (final (run_sets (hasher := identity_hash) main_sets) ∅)
  = Returned 0.
Proof.
  assert (Forall (λ c, call_key (hasher := identity_hash) c
               ≠ Properties.get_key (hasher := identity_hash) BuildingPropertyId.Invalid)
    main_sets) as Hcalls
    by (repeat constructor; vm_compute; discriminate).
  split; [exact Hcalls|].
  apply (C6_absent_key_fallback (types := cpp_types) (hasher := identity_hash)
           main_sets t_int BuildingPropertyId.Invalid 0 Hcalls).
Defined.

(** ** Keys *)




(** For an enumeration the two embedded keys are that key as well. *)
Lemma enum_key_value {hasher : StdHash} {IdType : Type} (underlying : IdType → Z)
    (id : IdType) :
  Properties.set_key (traits := is_enum underlying) id
  = std_hash_size_t (static_cast_size_t (underlying id)) ∧
  Properties.get_key (traits := is_enum underlying) id
  = std_hash_size_t (static_cast_size_t (underlying id)).
Proof. split; reflexivity. Qed.

(** * Further properties *)

(** ** Bounds::contains in general *)

(** X1. When [x + width] and [y + height] fit [int], [contains(px, py)] is the
    test of the closed rectangle: [x <= px <= x + width] and
    [y <= py <= y + height]. *)
Theorem X1_contains_closed_rectangle (b : Bounds.t) (px py : Z) :
  fits_int (Bounds.x b + Bounds.width b) →
  fits_int (Bounds.y b + Bounds.height b) →
  (Bounds.contains b px py = Some true ↔
     Bounds.x b ≤ px ≤ Bounds.x b + Bounds.width b ∧
     Bounds.y b ≤ py ≤ Bounds.y b + Bounds.height b) ∧
  (Bounds.contains b px py = Some false ↔
     ¬ (Bounds.x b ≤ px ≤ Bounds.x b + Bounds.width b ∧
        Bounds.y b ≤ py ≤ Bounds.y b + Bounds.height b)).
Proof.
  intros Hx Hy. rewrite (Bounds_contains_spec b px py Hx Hy).
  split; split.
  - intros [= Hd]. apply bool_decide_eq_true_1 in Hd. exact Hd.
  - intros Hin. rewrite bool_decide_eq_true_2; [reflexivity | exact Hin].
  - intros [= Hd]. apply bool_decide_eq_false_1 in Hd. exact Hd.
  - intros Hout. rewrite bool_decide_eq_false_2; [reflexivity | exact Hout].
Qed.

(** X1 at [Bounds(10, 20, 5, 7)] and its far corner [(15, 27)]. *)
Lemma X1_contains_closed_rectangle_witness :
  Bounds.contains (Bounds.Bounds 10 20 5 7) 15 27 = Some true.
Proof.
  apply (X1_contains_closed_rectangle (Bounds.Bounds 10 20 5 7) 15 27).
  - unfold fits_int, INT_MIN, INT_MAX. simpl. lia.
  - unfold fits_int, INT_MIN, INT_MAX. simpl. lia.
  - simpl. lia.
Defined.

(** X2. [contains] has undefined behaviour exactly when a sum it gets to
    compute overflows: [x <= px] and [x + width] does not fit [int], or the
    first three tests pass and [y + height] does not fit. A point left of [x]
    is answered without any sum. *)
Theorem X2_contains_undefined_iff (b : Bounds.t) (px py : Z) :
  (Bounds.contains b px py = None ↔
     Bounds.x b ≤ px ∧
     (¬ fits_int (Bounds.x b + Bounds.width b) ∨
      (px ≤ Bounds.x b + Bounds.width b ∧ Bounds.y b ≤ py ∧
       ¬ fits_int (Bounds.y b + Bounds.height b)))) ∧
  (px < Bounds.x b → Bounds.contains b px py = Some false).
Proof.
  unfold Bounds.contains, int_add, fits_int.
  destruct (Z.leb_spec (Bounds.x b) px) as [Hx|Hx]; cbn [negb].
  2: { split; [|reflexivity]. split; [discriminate | lia]. }
  split; [|lia].
  destruct (Z.leb_spec INT_MIN (Bounds.x b + Bounds.width b)) as [Hlo|Hlo];
    cbn [andb]; [|split; [lia | reflexivity]].
  destruct (Z.leb_spec (Bounds.x b + Bounds.width b) INT_MAX) as [Hhi|Hhi];
    [|split; [lia | reflexivity]].
  destruct (Z.leb_spec px (Bounds.x b + Bounds.width b)) as [Hpx|Hpx]; cbn [negb];
    [|split; [discriminate | lia]].
  destruct (Z.leb_spec (Bounds.y b) py) as [Hy|Hy]; cbn [negb];
    [|split; [discriminate | lia]].
  destruct (Z.leb_spec INT_MIN (Bounds.y b + Bounds.height b)) as [Hlo'|Hlo'];
    cbn [andb]; [|split; [lia | reflexivity]].
  destruct (Z.leb_spec (Bounds.y b + Bounds.height b) INT_MAX) as [Hhi'|Hhi'];
    [|split; [lia | reflexivity]].
  split; [discriminate | lia].
Qed.

(** X3. When [x + width] and [y + height] fit [int], a [Bounds] with a
    negative width or a negative height contains no point: [contains] returns
    [false] everywhere. *)
Theorem X3_negative_extent_contains_nothing (b : Bounds.t) (px py : Z) :
  fits_int (Bounds.x b + Bounds.width b) →
  fits_int (Bounds.y b + Bounds.height b) →
  Bounds.width b < 0 ∨ Bounds.height b < 0 →
  Bounds.contains b px py = Some false.
Proof.
  intros Hx Hy Hneg. rewrite (Bounds_contains_spec b px py Hx Hy).
  rewrite bool_decide_eq_false_2; [reflexivity | lia].
Qed.

(** X3 at [Bounds(0, 0, -1, 2)] and its own origin. *)
Lemma X3_negative_extent_witness :
  Bounds.contains (Bounds.Bounds 0 0 (-1) 2) 0 0 = Some false.
Proof.
  apply (X3_negative_extent_contains_nothing (Bounds.Bounds 0 0 (-1) 2) 0 0).
  - unfold fits_int, INT_MIN, INT_MAX. simpl. lia.
  - unfold fits_int, INT_MIN, INT_MAX. simpl. lia.
  - left. simpl. lia.
Defined.

(** ** Properties::set and Properties::get on any store *)

Section further.
Context {types : ValueTypes} {hasher : StdHash}.

(** The slot of a key after a sequence of [set]s: what was there, else the
    cell of the earliest call with that key. *)
Lemma run_sets_lookup (calls : list set_call) (key : Z)
    (mProperties : gmap Z BaseProperty) :
  final (run_sets calls) mProperties !! key =
  match mProperties !! key with
  | Some second => Some second
  | None => first_with_key key calls
  end.
Proof.
  revert mProperties. induction calls as [|c rest IH]; intros mProperties.
  - cbn. unfold final. cbn. case_match; reflexivity.
  - unfold final in *. cbn [run_sets first_with_key]. rewrite bind_run.
    unfold run_set. rewrite set_run. rewrite IH. fold (call_key c).
    destruct (mProperties !! call_key c) eqn:Ec.
    + destruct (mProperties !! key) eqn:Ek; [reflexivity|].
      rewrite bool_decide_eq_false_2; [reflexivity | congruence].
    + destruct (decide (call_key c = key)) as [<-|Hne].
      * rewrite lookup_insert_eq, Ec, bool_decide_eq_true_2; reflexivity.
      * rewrite lookup_insert_ne by exact Hne.
        rewrite bool_decide_eq_false_2 by exact Hne. reflexivity.
Qed.

Lemma first_with_key_is_Some (calls : list set_call) (key : Z) :
  is_Some (first_with_key key calls) ↔ Exists (λ c, call_key c = key) calls.
Proof.
  induction calls as [|c rest IH]; cbn.
  - split; [intros [? [=]] | intros Hex; inversion Hex].
  - rewrite Exists_cons. case_bool_decide as Hkey.
    + split; [intros _; left; exact Hkey | eauto].
    + rewrite IH. tauto.
Qed.

(** X4. [set] always returns, and the keys of the map afterwards are those
    before together with the key of [id]. *)
Theorem X4_set_returns_and_adds_its_key {IdType : Type} {traits : IdTraits IdType}
    (ValueType : type) (id : IdType) (value : val ValueType)
    (mProperties : gmap Z BaseProperty) :
  result (Properties.set ValueType id value) mProperties = Returned tt ∧
  dom (final (Properties.set ValueType id value) mProperties)
  = {[Properties.set_key id]} ∪ dom mProperties.
Proof.
  unfold result, final. rewrite set_run. cbn. split; [reflexivity|].
  destruct (mProperties !! Properties.set_key id) eqn:E.
  - apply elem_of_dom_2 in E. symmetry.
    apply subseteq_union_1_L, singleton_subseteq_l, E.
  - apply dom_insert_L.
Qed.

(** X5. [set] removes and changes no entry, the one under its own key
    included: the map before is a submap of the map after. *)
Theorem X5_set_keeps_every_entry {IdType : Type} {traits : IdTraits IdType}
    (ValueType : type) (id : IdType) (value : val ValueType)
    (mProperties : gmap Z BaseProperty) :
  mProperties ⊆ final (Properties.set ValueType id value) mProperties.
Proof.
  unfold final. rewrite set_run. cbn.
  destruct (mProperties !! Properties.set_key id) eqn:E; [reflexivity|].
  apply insert_subseteq, E.
Qed.

(** X6. After [set(id, value)] the slot of [id]'s key holds the cell that was
    there before, and the new cell of [value] only when there was none. *)
Theorem X6_slot_after_set {IdType : Type} {traits : IdTraits IdType}
    (ValueType : type) (id : IdType) (value : val ValueType)
    (mProperties : gmap Z BaseProperty) :
  final (Properties.set ValueType id value) mProperties !! Properties.set_key id
  = Some (default (make_shared_Property ValueType value)
                  (mProperties !! Properties.set_key id)).
Proof.
  unfold final. rewrite set_run. cbn.
  destruct (mProperties !! Properties.set_key id) eqn:E; cbn.
  - exact E.
  - apply lookup_insert_eq.
Qed.

(** X7. The optional form of [get] has two outcomes only: empty exactly when
    the key of [id] is not in the map, [std::bad_optional_access] exactly when
    it is; it returns a value on no store, for no identifier and no type. *)
Theorem X7_get_outcomes {IdType : Type} {traits : IdTraits IdType}
    (ValueType : type) (id : IdType) (mProperties : gmap Z BaseProperty) :
  (result (Properties.get ValueType id) mProperties = Returned None
     ↔ mProperties !! Properties.get_key id = None) ∧
  (result (Properties.get ValueType id) mProperties = Threw bad_optional_access
     ↔ is_Some (mProperties !! Properties.get_key id)) ∧
  (∀ v : val ValueType,
     result (Properties.get ValueType id) mProperties ≠ Returned (Some v)).
Proof.
  unfold result. rewrite get_run. cbn.
  destruct (mProperties !! Properties.get_key id) eqn:E.
  - split; [split; discriminate|]. split; [|discriminate].
    split; [eauto | reflexivity].
  - split; [split; reflexivity|]. split; [|discriminate].
    split; [discriminate | intros [? [=]]].
Qed.

(** X8. The fallback form of [get] returns [fallback] exactly when the key of
    [id] is not in the map and throws [std::bad_optional_access] exactly when it
    is: its last statement, which would return a reference to the local
    optional's value, is never reached. *)
Theorem X8_get_fallback_outcomes {IdType : Type} {traits : IdTraits IdType}
    (ValueType : type) (id : IdType) (fallback : val ValueType)
    (mProperties : gmap Z BaseProperty) :
  (mProperties !! Properties.get_key id = None →
     result (Properties.get_fallback ValueType id fallback) mProperties
     = Returned fallback) ∧
  (result (Properties.get_fallback ValueType id fallback) mProperties
     = Threw bad_optional_access
     ↔ is_Some (mProperties !! Properties.get_key id)) ∧
  (∀ second, mProperties !! Properties.get_key id = Some second →
     ∀ v, result (Properties.get_fallback ValueType id fallback) mProperties
          ≠ Returned v).
Proof.
  unfold result. rewrite get_fallback_run. cbn.
  destruct (mProperties !! Properties.get_key id) eqn:E.
  - split; [discriminate|]. split; [split; [eauto | reflexivity]|].
    intros second _ v. discriminate.
  - split; [reflexivity|]. split; [split; [discriminate | intros [? [=]]]|].
    intros second [=].
Qed.

(** X9. Two [set]s under different keys commute. *)
Theorem X9_sets_of_different_keys_commute {IdType1 IdType2 : Type}
    {traits1 : IdTraits IdType1} {traits2 : IdTraits IdType2}
    (A B : type) (id1 : IdType1) (id2 : IdType2) (v : val A) (w : val B)
    (mProperties : gmap Z BaseProperty) :
  Properties.set_key id1 ≠ Properties.set_key id2 →
  final (Properties.set A id1 v;; Properties.set B id2 w) mProperties
  = final (Properties.set B id2 w;; Properties.set A id1 v) mProperties.
Proof.
  intros Hne. unfold final. rewrite !set_then. unfold final. rewrite !set_run. cbn.
  destruct (mProperties !! Properties.set_key id1) eqn:E1;
    destruct (mProperties !! Properties.set_key id2) eqn:E2;
    rewrite ?E1, ?E2, ?lookup_insert_ne, ?E1, ?E2 by congruence; try reflexivity.
  apply insert_insert_ne. congruence.
Qed.

(** X10. Two [set]s under the same key, whatever the identifiers, their types
    and the value types: the second changes nothing, and a [get] under that key
    afterwards throws. *)
Theorem X10_same_key_second_set_is_lost {IdType1 IdType2 IdType3 : Type}
    {traits1 : IdTraits IdType1} {traits2 : IdTraits IdType2}
    {traits3 : IdTraits IdType3}
    (A B C : type) (id1 : IdType1) (id2 : IdType2) (id3 : IdType3)
    (v : val A) (w : val B) (mProperties : gmap Z BaseProperty) :
  Properties.set_key id1 = Properties.set_key id2 →
  Properties.get_key id3 = Properties.set_key id1 →
  final (Properties.set A id1 v;; Properties.set B id2 w) mProperties
  = final (Properties.set A id1 v) mProperties ∧
  result (Properties.set A id1 v;; Properties.set B id2 w;; Properties.get C id3)
    mProperties = Threw bad_optional_access.
Proof.
  intros Hkey Hget.
  assert (final (Properties.set A id1 v;; Properties.set B id2 w) mProperties
          = final (Properties.set A id1 v) mProperties) as Hfinal.
  { unfold final at 1. rewrite set_then.
    apply set_present_noop. rewrite <- Hkey. apply set_key_present. }
  split; [exact Hfinal|].
  unfold result. rewrite !set_then.
  rewrite get_present_throws; [reflexivity|].
  apply set_preserves_present. rewrite Hget. apply set_key_present.
Qed.

End further.

(** X8 on an empty store, for [BuildingPropertyId::Invalid] and fallback [0]. *)
Lemma X8_get_fallback_outcomes_witness :
  result (Properties.get_fallback (hasher := identity_hash) t_int
            BuildingPropertyId.Invalid 0) ∅ = Returned 0.
Proof.
  apply (X8_get_fallback_outcomes (types := cpp_types) (hasher := identity_hash)
           t_int BuildingPropertyId.Invalid 0 ∅).
  reflexivity.
Defined.

(** X9 for the two [set]s of [main] under the identity hasher, keys [1] and
    [2]. *)
Lemma X9_sets_commute_witness :
  Properties.set_key (hasher := identity_hash) BuildingPropertyId.BuildingType
  ≠ Properties.set_key (hasher := identity_hash) BuildingPropertyId.Bounds ∧
  final (Properties.set (hasher := identity_hash) t_BuildingType
           BuildingPropertyId.BuildingType BuildingType.TownCenter;;
         Properties.set (hasher := identity_hash) t_Bounds
           BuildingPropertyId.Bounds (Bounds.Bounds 0 0 2 2)) ∅
  = final (Properties.set (hasher := identity_hash) t_Bounds
             BuildingPropertyId.Bounds (Bounds.Bounds 0 0 2 2);;
           Properties.set (hasher := identity_hash) t_BuildingType
             BuildingPropertyId.BuildingType BuildingType.TownCenter) ∅.
Proof.
  assert (Properties.set_key (hasher := identity_hash) BuildingPropertyId.BuildingType
          ≠ Properties.set_key (hasher := identity_hash) BuildingPropertyId.Bounds)
    as Hne by (vm_compute; discriminate).
  split; [exact Hne|].
  apply (X9_sets_of_different_keys_commute (types := cpp_types)
           (hasher := identity_hash) t_BuildingType t_Bounds
           BuildingPropertyId.BuildingType BuildingPropertyId.Bounds
           BuildingType.TownCenter (Bounds.Bounds 0 0 2 2) ∅ Hne).
Defined.

(** X10 for an enumeration member and an [int] identifier that hash alike
    under the identity hasher: [UnitPropertyId::MovementSpeed] and [1]. *)
Lemma X10_same_key_witness :
  Properties.set_key (hasher := identity_hash) UnitPropertyId.MovementSpeed
  = Properties.set_key (hasher := identity_hash)
      (traits := is_trivial static_cast_size_t) 1 ∧
  result (Properties.set (hasher := identity_hash) t_int UnitPropertyId.MovementSpeed 3;;
          Properties.set (hasher := identity_hash)
            (traits := is_trivial static_cast_size_t) t_int 1 4;;
          Properties.get (hasher := identity_hash) t_int UnitPropertyId.MovementSpeed) ∅
  = Threw bad_optional_access.
Proof.
  split; [reflexivity|].
  apply (X10_same_key_second_set_is_lost (types := cpp_types) (hasher := identity_hash)
           (traits2 := is_trivial static_cast_size_t)
           t_int t_int t_int UnitPropertyId.MovementSpeed 1 UnitPropertyId.MovementSpeed
           3 4 ∅); reflexivity.
Defined.

(** ** Sequences of calls *)

Section sequences.
Context {types : ValueTypes} {hasher : StdHash}.

Lemma run_sets_returns (calls : list set_call) (mProperties : gmap Z BaseProperty) :
  result (run_sets calls) mProperties = Returned tt.
Proof.
  revert mProperties. induction calls as [|c rest IH]; intros mProperties.
  - reflexivity.
  - unfold result in *. cbn [run_sets]. rewrite bind_run.
    unfold run_set. rewrite set_run. apply IH.
Qed.

Lemma run_sets_app (calls1 calls2 : list set_call) (mProperties : gmap Z BaseProperty) :
  final (run_sets (calls1 ++ calls2)) mProperties
  = final (run_sets calls2) (final (run_sets calls1) mProperties).
Proof.
  revert mProperties. induction calls1 as [|c rest IH]; intros mProperties.
  - reflexivity.
  - unfold final in *. cbn [app run_sets]. rewrite !bind_run.
    unfold run_set. rewrite set_run. apply IH.
Qed.

Lemma first_with_key_None (calls : list set_call) (key : Z) :
  first_with_key key calls = None ↔ Forall (λ c, call_key c ≠ key) calls.
Proof.
  induction calls as [|c rest IH]; cbn.
  - split; [constructor | reflexivity].
  - rewrite Forall_cons. case_bool_decide as Hkey.
    + split; [discriminate | intros [Hne _]; contradiction].
    + rewrite IH. tauto.
Qed.

(** With pairwise different keys, the order of the calls does not matter for
    which call a key finds. *)
Lemma first_with_key_Permutation (calls1 calls2 : list set_call) (key : Z) :
  calls1 ≡ₚ calls2 →
  NoDup (call_key <$> calls1) →
  first_with_key key calls1 = first_with_key key calls2.
Proof.
  induction 1 as [|c l1 l2 Hperm IH|c1 c2 l|l1 l2 l3 H12 IH12 H23 IH23]; intros Hnodup.
  - reflexivity.
  - cbn. rewrite fmap_cons, NoDup_cons in Hnodup.
    rewrite IH by apply Hnodup. reflexivity.
  - cbn. rewrite !fmap_cons, !NoDup_cons, not_elem_of_cons in Hnodup.
    destruct Hnodup as [[Hne _] _].
    repeat case_bool_decide; congruence.
  - rewrite IH12 by exact Hnodup. apply IH23.
    rewrite <- H12. exact Hnodup.
Qed.

(** X11. A store filled from empty by a sequence of [set]s: every call
    returns, the keys of the map are the keys of the calls, and each slot holds
    the cell of the earliest call with its key; later calls with that key left
    no trace. *)
Theorem X11_store_after_sets (calls : list set_call) :
  result (run_sets calls) ∅ = Returned tt ∧
  dom (final (run_sets calls) ∅) = list_to_set (call_key <$> calls) ∧
  ∀ key : Z, final (run_sets calls) ∅ !! key = first_with_key key calls.
Proof.
  split; [apply run_sets_returns|].
  assert (∀ key : Z, final (run_sets calls) ∅ !! key = first_with_key key calls)
    as Hslot by (intros key; rewrite run_sets_lookup, lookup_empty; reflexivity).
  split; [|exact Hslot].
  apply set_eq. intros key.
  rewrite elem_of_dom, Hslot, first_with_key_is_Some, elem_of_list_to_set,
    list_elem_of_fmap, Exists_exists.
  split; intros (c & H1 & H2); exists c; split; congruence || assumption.
Qed.

(** X12. After a sequence of [set]s on an empty store, [get] for [id] throws
    exactly when some call of the sequence had the key [get] computes for
    [id], and returns empty exactly when none had. *)
Theorem X12_get_after_sets {IdType : Type} {traits : IdTraits IdType}
    (calls : list set_call) (ValueType : type) (id : IdType) :
  (result (Properties.get ValueType id) (final (run_sets calls) ∅)
     = Threw bad_optional_access
   ↔ Exists (λ c, call_key c = Properties.get_key id) calls) ∧
  (result (Properties.get ValueType id) (final (run_sets calls) ∅) = Returned None
   ↔ Forall (λ c, call_key c ≠ Properties.get_key id) calls).
Proof.
  rewrite <- first_with_key_is_Some, <- first_with_key_None.
  unfold result. rewrite get_run. cbn.
  rewrite run_sets_lookup, lookup_empty.
  destruct (first_with_key (Properties.get_key id) calls) eqn:E.
  - split; split; try discriminate; eauto.
  - split; split; try discriminate; try reflexivity.
    intros [second Hsome]. discriminate Hsome.
Qed.

(** X13. Running a sequence of [set]s a second time changes nothing: every key
    it uses is taken after the first run. *)
Theorem X13_sets_twice_as_once (calls : list set_call)
    (mProperties : gmap Z BaseProperty) :
  final (run_sets (calls ++ calls)) mProperties = final (run_sets calls) mProperties.
Proof.
  rewrite run_sets_app. apply map_eq. intros key.
  rewrite run_sets_lookup.
  destruct (final (run_sets calls) mProperties !! key) eqn:E; [reflexivity|].
  rewrite run_sets_lookup in E.
  destruct (mProperties !! key); [discriminate E | exact E].
Qed.

(** X14. [set]s with pairwise different keys can be made in any order: two
    sequences that are permutations of each other leave the same map. *)
Theorem X14_sets_of_distinct_keys_in_any_order (calls1 calls2 : list set_call)
    (mProperties : gmap Z BaseProperty) :
  calls1 ≡ₚ calls2 →
  NoDup (call_key <$> calls1) →
  final (run_sets calls1) mProperties = final (run_sets calls2) mProperties.
Proof.
  intros Hperm Hnodup. apply map_eq. intros key.
  rewrite !run_sets_lookup.
  rewrite (first_with_key_Permutation calls1 calls2 key Hperm Hnodup). reflexivity.
Qed.

End sequences.

(** X14 for the two [set]s of [main], in the order of [main] and reversed. *)
Lemma X14_any_order_witness :
  final (run_sets (hasher := identity_hash) main_sets) ∅
  = final (run_sets (hasher := identity_hash) (reverse main_sets)) ∅.
Proof.
  apply (X14_sets_of_distinct_keys_in_any_order (types := cpp_types)
           (hasher := identity_hash) main_sets (reverse main_sets) ∅).
  - unfold main_sets. apply Permutation_swap.
  - unfold main_sets. cbn. repeat constructor.
    + rewrite list_elem_of_singleton. vm_compute. discriminate.
    + apply not_elem_of_nil.
Defined.

(** ** Keys by kind of identifier type *)

Lemma static_cast_size_t_inj_on_int (a b : Z) :
  fits_int a → fits_int b →
  static_cast_size_t a = static_cast_size_t b → a = b.
Proof.
  unfold fits_int, INT_MIN, INT_MAX, static_cast_size_t, SIZE_WIDTH.
  change (2 ^ 64) with 18446744073709551616.
  change (2 ^ 31) with 2147483648.
  intros Ha Hb Heq.
  pose proof (Z.div_mod a 18446744073709551616 ltac:(lia)) as Da.
  pose proof (Z.div_mod b 18446744073709551616 ltac:(lia)) as Db.
  pose proof (Z.mod_pos_bound a 18446744073709551616 ltac:(lia)) as Ba.
  pose proof (Z.mod_pos_bound b 18446744073709551616 ltac:(lia)) as Bb.
  lia.
Qed.

Lemma static_cast_size_t_range (v : Z) :
  0 ≤ static_cast_size_t v < 2 ^ SIZE_WIDTH.
Proof. unfold static_cast_size_t, SIZE_WIDTH. apply Z.mod_pos_bound. lia. Qed.

Section keys.
Context {types : ValueTypes} {hasher : StdHash}.

(** X16. With a hasher that is injective on [std::size_t], two members of
    enumerations whose underlying values fit [int] have the same key exactly
    when the underlying values are equal; when they differ, a [set] under one
    does not change what [get] answers for the other. *)
Theorem X16_enum_keys_injective {E1 E2 : Type}
    (underlying1 : E1 → Z) (underlying2 : E2 → Z) (e1 : E1) (e2 : E2)
    (A B : type) (v : val A) (mProperties : gmap Z BaseProperty) :
  (∀ a b : Z, 0 ≤ a < 2 ^ SIZE_WIDTH → 0 ≤ b < 2 ^ SIZE_WIDTH →
              std_hash_size_t a = std_hash_size_t b → a = b) →
  fits_int (underlying1 e1) → fits_int (underlying2 e2) →
  (Properties.set_key (traits := is_enum underlying1) e1
     = Properties.get_key (traits := is_enum underlying2) e2
   ↔ underlying1 e1 = underlying2 e2) ∧
  (underlying1 e1 ≠ underlying2 e2 →
   result (Properties.get (traits := is_enum underlying2) B e2)
     (final (Properties.set (traits := is_enum underlying1) A e1 v) mProperties)
   = result (Properties.get (traits := is_enum underlying2) B e2) mProperties).
Proof.
  intros Hinj H1 H2.
  assert (Properties.set_key (traits := is_enum underlying1) e1
            = Properties.get_key (traits := is_enum underlying2) e2
          ↔ underlying1 e1 = underlying2 e2) as Hkeys.
  { unfold Properties.set_key, Properties.get_key. split.
    - intros Heq. apply Hinj in Heq; try apply static_cast_size_t_range.
      apply static_cast_size_t_inj_on_int; assumption.
    - intros ->. reflexivity. }
  split; [exact Hkeys|].
  intros Hne. unfold result, final. rewrite !get_run, set_run. cbn [fst snd].
  destruct (mProperties !! Properties.set_key (traits := is_enum underlying1) e1);
    [reflexivity|].
  rewrite lookup_insert_ne; [reflexivity|].
  intros Heq. apply Hne, Hkeys, Heq.
Qed.

End keys.

(** X16 for [BuildingPropertyId::BuildingType] and [BuildingPropertyId::Bounds]
    under the identity hasher. *)
Lemma X16_enum_keys_injective_witness :
  BuildingPropertyId.underlying BuildingPropertyId.BuildingType
  ≠ BuildingPropertyId.underlying BuildingPropertyId.Bounds ∧
  result (Properties.get (hasher := identity_hash)
            (traits := is_enum BuildingPropertyId.underlying)
            t_Bounds BuildingPropertyId.Bounds)
    (final (Properties.set (hasher := identity_hash)
              (traits := is_enum BuildingPropertyId.underlying) t_BuildingType
              BuildingPropertyId.BuildingType BuildingType.TownCenter) ∅)
  = result (Properties.get (hasher := identity_hash)
              (traits := is_enum BuildingPropertyId.underlying)
              t_Bounds BuildingPropertyId.Bounds) ∅.
Proof.
  assert (BuildingPropertyId.underlying BuildingPropertyId.BuildingType
          ≠ BuildingPropertyId.underlying BuildingPropertyId.Bounds) as Hne
    by (simpl; lia).
  split; [exact Hne|].
  apply (X16_enum_keys_injective (types := cpp_types) (hasher := identity_hash)
           BuildingPropertyId.underlying BuildingPropertyId.underlying
           BuildingPropertyId.BuildingType BuildingPropertyId.Bounds
           t_BuildingType t_Bounds BuildingType.TownCenter ∅).
  - intros a b _ _ Hab. exact Hab.
  - unfold fits_int, INT_MIN, INT_MAX. simpl. lia.
  - unfold fits_int, INT_MIN, INT_MAX. simpl. lia.
  - exact Hne.
Defined.

(** ** Entity *)

(** X18. On an [Entity] just constructed, of any type, every [get] finds
    nothing: the optional form returns empty and the fallback form returns the
    fallback, for every identifier, requested type and hasher. *)
Theorem X18_fresh_entity_has_no_property {hasher : StdHash}
    {IdType : Type} {traits : IdTraits IdType}
    (type : EntityType.t) (ValueType : cpp_type) (id : IdType)
    (fallback : cpp_val ValueType) :
  result (Properties.get ValueType id) (properties (Entity_ctor type)) = Returned None ∧
  result (Properties.get_fallback ValueType id fallback) (properties (Entity_ctor type))
  = Returned fallback.
Proof.
  unfold result, properties, Entity_ctor, mProps.
  rewrite get_run, get_fallback_run, lookup_empty. split; reflexivity.
Qed.

(** X2 at [Bounds(2147483647, 0, 1, 1)], whose [x + width] overflows, and the
    point [(0, 0)] left of it: answered [false] without the sum. *)
Lemma X2_contains_undefined_witness :
  Bounds.contains (Bounds.Bounds 2147483647 0 1 1) 0 0 = Some false ∧
  int_add 2147483647 1 = None.
Proof.
  split; [|reflexivity].
  apply (X2_contains_undefined_iff (Bounds.Bounds 2147483647 0 1 1) 0 0).
  simpl. lia.
Defined.
